(** * Welcome screen of a guild: wire payloads and in-memory objects

    A shallow embedding of [discord/welcome_screen.py]: the classes
    [WelcomeChannel] and [WelcomeScreen], their hydration from wire payloads
    ([_from_dict], [_store]), serialisation ([to_dict]), the derived
    [enabled] flag and the network-backed [edit].

    Python values are dynamically typed: payloads are dicts of JSON values
    in which a key can be missing or carry [None], and [edit] receives an
    open keyword dictionary. The embedding keeps that: one type of values,
    dicts as finite maps from strings, exceptions as an error type, and the
    mutable objects (the guild, the welcome screen, the transport's request
    log) as an explicit world threaded through the stateful methods. *)

From Stdlib Require Import ZArith String List DecimalString DecimalZ.
From stdpp Require Import base option list gmap strings fin_maps.

Local Open Scope Z_scope.
Local Open Scope string_scope.
Local Set Warnings "-register-all".

(** ** Collaborator objects *)

(** A guild channel, as far as this module looks at it: [channel.id]. *)
Record Channel := mkChannel {
  channel_id : Z;
  channel_name : string;
}.

(** A custom emoji of a guild ([Emoji]): [emoji.id] and [emoji.name]. *)
Record Emoji := mkEmoji {
  emoji_id : Z;
  emoji_name : string;
}.

(** The instances of [_EmojiTag]: a guild's [Emoji], or a [PartialEmoji]
    whose [id] is optional. *)
Inductive EmojiTag :=
| TagEmoji (e : Emoji)
| TagPartial (id : option Z) (name : option string).

(** ** Python values *)

(** JSON-like values and the objects of this module. The [emoji] attribute
    of a [WelcomeChannel] holds either an [_EmojiTag] instance or any other
    value ([str] or [None] by the docstring); [channel] holds a channel or
    [None]. *)
Inductive pyval :=
| VNone
| VBool (b : bool)
| VInt (z : Z)
| VStr (s : string)
| VList (l : list pyval)
| VDict (d : gmap string pyval)
| VWelcomeChannel (wc : WelcomeChannel)
with WelcomeChannel :=
| mkWelcomeChannel (channel : option Channel) (description : pyval)
                   (emoji : emoji_value)
with emoji_value :=
| EmojiObj (t : EmojiTag)
| EmojiRaw (v : pyval).

Definition wc_channel (wc : WelcomeChannel) : option Channel :=
  match wc with mkWelcomeChannel c _ _ => c end.
Definition wc_description (wc : WelcomeChannel) : pyval :=
  match wc with mkWelcomeChannel _ d _ => d end.
Definition wc_emoji (wc : WelcomeChannel) : emoji_value :=
  match wc with mkWelcomeChannel _ _ e => e end.

(** ** Exceptions and results *)

Inductive exn :=
| KeyError (key : string)
| TypeError
| AttributeError
| ValueError
| InvalidArgument (msg : string)
| Forbidden
| NotFound
| HTTPException.

Inductive result (A : Type) :=
| Ok (a : A)
| Raise (e : exn).
Arguments Ok {A} a.
Arguments Raise {A} e.

#[global] Instance result_ret : MRet result := λ A a, Ok a.
#[global] Instance result_bind : MBind result := λ A B f r,
  match r with
  | Ok a => f a
  | Raise e => Raise e
  end.
#[global] Instance result_fmap : FMap result := λ A B f r,
  match r with
  | Ok a => Ok (f a)
  | Raise e => Raise e
  end.

(** The elements of a comprehension or loop body, left to right, stopping
    at the first exception. *)
Fixpoint result_mapM {A B : Type} (f : A → result B) (l : list A)
  : result (list B) :=
  match l with
  | [] => Ok []
  | x :: l' => y ← f x; ys ← result_mapM f l'; mret (y :: ys)
  end.

(** ** Built-in operations on values *)

(** [bool(v)]: the truth value Python's [if] and [and] test. Instances of
    [WelcomeChannel] define neither [__bool__] nor [__len__]. *)
Definition py_truthy (v : pyval) : bool :=
  match v with
  | VNone => false
  | VBool b => b
  | VInt z => negb (Z.eqb z 0)
  | VStr s => negb (String.eqb s "")
  | VList l => match l with [] => false | _ => true end
  | VDict d => negb (Nat.eqb (size d) 0)
  | VWelcomeChannel _ => true
  end.

(** [v[key]] for a [str] key: only a dict can be subscripted by one. *)
Definition py_getitem (v : pyval) (key : string) : result pyval :=
  match v with
  | VDict d => match d !! key with
               | Some x => Ok x
               | None => Raise (KeyError key)
               end
  | _ => Raise TypeError
  end.

(** [v.get(key, default)]: a method of dicts only. *)
Definition py_get (v : pyval) (key : string) (default : pyval)
  : result pyval :=
  match v with
  | VDict d => Ok (match d !! key with Some x => x | None => default end)
  | _ => Raise AttributeError
  end.

(** [iter(v)] run to the end: lists give their elements, a [str] its
    characters, a dict its keys; everything else is not iterable. The order
    of a dict's keys is the map's, not Python's insertion order: no caller
    below tells them apart, every key being a [str]. *)
Definition py_iter (v : pyval) : result (list pyval) :=
  match v with
  | VList l => Ok l
  | VStr s => Ok ((λ c, VStr (String c EmptyString)) <$> list_ascii_of_string s)
  | VDict d => Ok ((λ kv, VStr kv.1) <$> map_to_list d)
  | _ => Raise TypeError
  end.

(** [tag.id] and [tag.name] of an [_EmojiTag] instance. *)
Definition tag_id (t : EmojiTag) : pyval :=
  match t with
  | TagEmoji e => VInt (emoji_id e)
  | TagPartial (Some z) _ => VInt z
  | TagPartial None _ => VNone
  end.

Definition tag_name (t : EmojiTag) : pyval :=
  match t with
  | TagEmoji e => VStr (emoji_name e)
  | TagPartial _ (Some s) => VStr s
  | TagPartial _ None => VNone
  end.

(** ** The guild *)

Record Guild := mkGuild {
  guild_id : Z;
  guild_channels : list Channel;
  guild_emojis : list Emoji;
  guild_features : list string;
}.

(** Modelled from the spec: [Guild.get_channel] is not among the sources.
    "getChannel(id) -> channel|absent": the channel of the guild with that
    id, absent when there is none (or when the argument is no id at all);
    it never fails. *)
Definition get_channel (guild : Guild) (channel_id' : pyval) : option Channel :=
  match channel_id' with
  | VInt z => List.find (λ c, Z.eqb (channel_id c) z) (guild_channels guild)
  | _ => None
  end.

(** Modelled from the spec: [utils.get] is not among the sources. With the
    one attribute [id] it is a "lookup-by-id" in the collection: the first
    element whose [id] equals the value, [None] when there is none. *)
Definition get (emojis : list Emoji) (id : pyval) : option Emoji :=
  match id with
  | VInt z => List.find (λ e, Z.eqb (emoji_id e) z) emojis
  | VBool b => List.find (λ e, Z.eqb (emoji_id e) (Z.b2z b)) emojis
  | _ => None
  end.

Section Model.

(** Python's built-in [int] on a [str]: the number a string denotes,
    [None] where [int] raises [ValueError]. *)
Variable int_of_str : string → option Z.

(** The transport: [http.edit_welcome_screen(guild_id, fields)] returns
    the server's payload or raises. *)
Variable edit_welcome_screen : Z → gmap string pyval → result pyval.

(** [int(v)] *)
Definition py_int (v : pyval) : result Z :=
  match v with
  | VInt z => Ok z
  | VBool b => Ok (Z.b2z b)
  | VStr s => match int_of_str s with
              | Some z => Ok z
              | None => Raise ValueError
              end
  | _ => Raise TypeError
  end.

(** Modelled from the spec: [utils._get_as_snowflake] is not among the
    sources. It "extracts an identifier from the payload": a missing key
    gives [None]; otherwise [value and int(value)], so that a null (or
    otherwise false) value is passed through and an id becomes an [int]. *)
Definition _get_as_snowflake (data : pyval) (key : string) : result pyval :=
  match py_getitem data key with
  | Raise (KeyError _) => Ok VNone
  | Raise e => Raise e
  | Ok value => if py_truthy value then VInt <$> py_int value else Ok value
  end.

(** ** [WelcomeChannel] *)

(** [WelcomeChannel._from_dict(data=data, guild=guild)] *)
Definition _from_dict (data : pyval) (guild : Guild) : result WelcomeChannel :=
  channel_id' ← _get_as_snowflake data "channel_id";
  let channel := get_channel guild channel_id' in
  description ← py_getitem data "description";
  _emoji_id ← _get_as_snowflake data "emoji_id";
  _emoji_name ← py_getitem data "emoji_name";
  let emoji :=
    if py_truthy _emoji_id then
      (* custom *)
      match get (guild_emojis guild) _emoji_id with
      | Some e => EmojiObj (TagEmoji e)
      | None => EmojiRaw VNone
      end
    else
      (* unicode or None *)
      EmojiRaw _emoji_name in
  mret (mkWelcomeChannel channel description emoji).

(** [self.channel.id]: [None] has no attribute [id]. *)
Definition channel_attr_id (channel : option Channel) : result pyval :=
  match channel with
  | Some c => Ok (VInt (channel_id c))
  | None => Raise AttributeError
  end.

(** [WelcomeChannel.to_dict(self)] *)
Definition to_dict (self : WelcomeChannel) : result (gmap string pyval) :=
  cid ← channel_attr_id (wc_channel self);
  let ret : gmap string pyval :=
    <["emoji_name" := VNone]> (<["emoji_id" := VNone]>
      (<["description" := wc_description self]> {["channel_id" := cid]})) in
  match wc_emoji self with
  | EmojiObj t =>
      mret (<["emoji_name" := tag_name t]> (<["emoji_id" := tag_id t]> ret))
  | EmojiRaw v =>
      (* unicode or None *)
      mret (<["emoji_name" := v]> ret)
  end.

(** ** [WelcomeScreen] *)

(** The attributes [_store] assigns. *)
Record WelcomeScreen := mkWelcomeScreen {
  description : pyval;
  welcome_channels : list WelcomeChannel;
}.

(** The objects a method of a welcome screen can reach: the guild it
    refers to ([self._guild], shared with the rest of the library, which
    may change it), its own attributes, and the requests the transport
    ([self._state.http]) was asked to send, oldest first. *)
Record World := mkWorld {
  w_guild : Guild;
  w_screen : WelcomeScreen;
  w_requests : list (Z * gmap string pyval);
}.

(** A method body: it returns or raises, and leaves a world behind in
    both cases (what was assigned before an exception stays assigned). *)
Definition M (A : Type) : Type := World → result A * World.

#[local] Instance M_ret : MRet M := λ A a w, (Ok a, w).
#[local] Instance M_bind : MBind M := λ A B f m w,
  match m w with
  | (Ok a, w') => f a w'
  | (Raise e, w') => (Raise e, w')
  end.

Definition lift {A : Type} (r : result A) : M A := λ w, (r, w).

Definition self_guild : M Guild := λ w, (Ok (w_guild w), w).

Definition set_description (v : pyval) : M unit := λ w,
  (Ok tt,
   mkWorld (w_guild w)
           (mkWelcomeScreen v (welcome_channels (w_screen w)))
           (w_requests w)).

Definition set_welcome_channels (l : list WelcomeChannel) : M unit := λ w,
  (Ok tt,
   mkWorld (w_guild w)
           (mkWelcomeScreen (description (w_screen w)) l)
           (w_requests w)).

(** [await self._state.http.edit_welcome_screen(guild_id, fields)]: the
    request is recorded, then the transport answers. *)
Definition http_edit_welcome_screen (gid : Z) (fields : gmap string pyval)
  : M pyval := λ w,
  (edit_welcome_screen gid fields,
   mkWorld (w_guild w) (w_screen w) (w_requests w ++ [(gid, fields)])).

(** [WelcomeScreen._store(self, data)] *)
Definition _store (data : pyval) : M unit :=
  d ← lift (py_getitem data "description");
  set_description d;;
  wcs ← lift (py_get data "welcome_channels" (VList []));
  items ← lift (py_iter wcs);
  guild ← self_guild;
  entries ← lift (result_mapM (λ wc, _from_dict wc guild) items);
  set_welcome_channels entries.

(** [WelcomeScreen.enabled]: a property, computed at each read. *)
Definition enabled (w : World) : bool :=
  bool_decide ("WELCOME_SCREEN_ENABLED" ∈ guild_features (w_guild w)).

(** The rest of the library assigning [guild.features]. *)
Definition set_guild_features (features : list string) (w : World) : World :=
  mkWorld (mkGuild (guild_id (w_guild w)) (guild_channels (w_guild w))
                   (guild_emojis (w_guild w)) features)
          (w_screen w) (w_requests w).

Definition welcome_channels_message : string :=
  "welcome_channels parameter must be a list of WelcomeChannel".

(** The loop of [edit] over the elements of [welcome_channels], with the
    list [welcome_channels_serialised] built so far. *)
Fixpoint serialise (items : list pyval) (serialised : list pyval)
  : result (list pyval) :=
  match items with
  | [] => Ok serialised
  | wc :: items' =>
      match wc with
      | VWelcomeChannel c =>
          d ← to_dict c;
          serialise items' (serialised ++ [VDict d])
      | _ =>
          Raise (InvalidArgument welcome_channels_message)
      end
  end.

(** The first half of [edit]: [kwargs] as it stands when the request is
    decided. *)
Definition edit_fields (kwargs : gmap string pyval)
  : result (gmap string pyval) :=
  match kwargs !! "welcome_channels" with
  | None => Ok kwargs
  | Some welcome_channels' =>
      items ← py_iter welcome_channels';
      welcome_channels_serialised ← serialise items [];
      mret (<["welcome_channels" := VList welcome_channels_serialised]> kwargs)
  end.

(** [WelcomeScreen.edit(self, **kwargs)] *)
Definition edit (kwargs : gmap string pyval) : M unit :=
  kwargs' ← lift (edit_fields kwargs);
  if py_truthy (VDict kwargs') then
    guild ← self_guild;
    data ← http_edit_welcome_screen (guild_id guild) kwargs';
    _store data
  else
    mret tt.

(** ** The wire shape and the statements about it *)

(** An optional field: the key is missing, or carries [None], or a value
    of the field's type. *)
Definition optional (is_ty : pyval → bool) (field : option pyval) : bool :=
  match field with
  | None => true
  | Some VNone => true
  | Some v => is_ty v
  end.

Definition is_int (v : pyval) : bool :=
  match v with VInt _ => true | _ => false end.
Definition is_str (v : pyval) : bool :=
  match v with VStr _ => true | _ => false end.

(** [WelcomeScreenChannelPayload]: [channel_id] an integer id and
    [description] a string, both required; [emoji_id] an integer id or
    absent; [emoji_name] a string or absent. *)
Definition wire_shape (p : gmap string pyval) : bool :=
  match p !! "channel_id", p !! "description" with
  | Some (VInt _), Some (VStr _) =>
      optional is_int (p !! "emoji_id") && optional is_str (p !! "emoji_name")
  | _, _ => false
  end.

(** A payload of the wire shape that the guild can resolve: its channel is
    one of the guild's, and so is its custom emoji when it carries one. *)
Definition valid_payload (guild : Guild) (p : gmap string pyval) : bool :=
  wire_shape p
  && match p !! "channel_id" with
     | Some c => bool_decide (is_Some (get_channel guild c))
     | None => false
     end
  && match p !! "emoji_id" with
     | Some (VInt z) => bool_decide (is_Some (get (guild_emojis guild) (VInt z)))
     | _ => true
     end.

(** The emoji fields a serialised entry must carry for the payload [p] it
    was hydrated from: the id and the registry's name for a custom emoji,
    a null id and [p]'s own name (null when [p] has none) otherwise. *)
Definition same_emoji_representation (guild : Guild)
    (p d : gmap string pyval) : Prop :=
  match p !! "emoji_id" with
  | Some (VInt z) =>
      d !! "emoji_id" = Some (VInt z) ∧
      ∃ e, get (guild_emojis guild) (VInt z) = Some e ∧
           d !! "emoji_name" = Some (VStr (emoji_name e))
  | _ =>
      d !! "emoji_id" = Some VNone ∧
      d !! "emoji_name" = Some (default VNone (p !! "emoji_name"))
  end.

(** [to_dict(_from_dict(p, guild))] is a payload that agrees with [p]. *)
Definition round_trip (guild : Guild) (p : gmap string pyval) : Prop :=
  ∃ entry d,
    _from_dict (VDict p) guild = Ok entry ∧
    to_dict entry = Ok d ∧
    d !! "channel_id" = p !! "channel_id" ∧
    d !! "description" = p !! "description" ∧
    same_emoji_representation guild p d.

(** The emoji hydration chooses for the id [z]: the guild's custom emoji
    with that id, or nothing. *)
Definition custom_emoji (guild : Guild) (z : Z) : emoji_value :=
  match get (guild_emojis guild) (VInt z) with
  | Some e => EmojiObj (TagEmoji e)
  | None => EmojiRaw VNone
  end.

(** [isinstance(v, WelcomeChannel)] *)
Definition is_entry (v : pyval) : bool :=
  match v with
  | VWelcomeChannel _ => true
  | _ => false
  end.

(** A [WelcomeChannel] whose [channel] is a channel, not [None]. *)
Definition is_resolved_entry (v : pyval) : bool :=
  match v with
  | VWelcomeChannel wc => bool_decide (is_Some (wc_channel wc))
  | _ => false
  end.

(** The four keys of [WelcomeScreenChannelPayload]. *)
Definition has_wire_fields (d : gmap string pyval) : Prop :=
  is_Some (d !! "channel_id") ∧ is_Some (d !! "description") ∧
  is_Some (d !! "emoji_id") ∧ is_Some (d !! "emoji_name").

(** [world] after one more request went out. *)
Definition sent (gid : Z) (fields : gmap string pyval) (w : World) : World :=
  mkWorld (w_guild w) (w_screen w) (w_requests w ++ [(gid, fields)]).

(** The list comprehension of [_store]: the entries of the payload's
    [welcome_channels], an empty list when the key is missing. *)
Definition hydrate_channels (data : pyval) (guild : Guild)
  : result (list WelcomeChannel) :=
  wcs ← py_get data "welcome_channels" (VList []);
  items ← py_iter wcs;
  result_mapM (λ wc, _from_dict wc guild) items.

(** [WelcomeScreen.__init__(self, *, data, guild)]: the guild is kept and
    [_store] fills the attributes; when [_store] raises there is no object.
    The attributes do not exist before [_store] assigns them: the starting
    values below are never read. *)
Definition WelcomeScreen_init (data : pyval) (guild : Guild)
  : result WelcomeScreen :=
  match _store data (mkWorld guild (mkWelcomeScreen VNone []) []) with
  | (Ok _, w) => Ok (w_screen w)
  | (Raise e, _) => Raise e
  end.

(** An emoji that hydration gives back for its own serialisation: anything
    that is not an [_EmojiTag] instance, or a custom emoji of the guild that
    [get] finds by its id, the id not being [0]. *)
Definition emoji_survives (guild : Guild) (emoji : emoji_value) : Prop :=
  match emoji with
  | EmojiRaw _ => True
  | EmojiObj (TagEmoji e) =>
      emoji_id e ≠ 0 ∧ get (guild_emojis guild) (VInt (emoji_id e)) = Some e
  | EmojiObj (TagPartial _ _) => False
  end.

End Model.

(** ** Sample objects *)

(** A reading of decimal digits, standing for [int] on a [str]. *)
Fixpoint digits_value (s : string) (acc : Z) : option Z :=
  match s with
  | EmptyString => Some acc
  | String c s' =>
      let n := Z.of_N (Ascii.N_of_ascii c) - 48 in
      if (0 <=? n)%Z && (n <=? 9)%Z then digits_value s' (10 * acc + n) else None
  end.

Definition int_of_digits (s : string) : option Z :=
  match s with
  | EmptyString => None
  | _ => digits_value s 0
  end.

(** Transports: one that refuses every request, one that always answers
    with the same payload. *)
Definition forbidden_transport : Z → gmap string pyval → result pyval :=
  λ _ _, Raise Forbidden.

Definition canned_transport (data : pyval)
  : Z → gmap string pyval → result pyval :=
  λ _ _, Ok data.

Definition rules_channel : Channel := mkChannel 12345678 "rules".
Definition loudspeaker : Emoji := mkEmoji 41771983 "loudspeaker".

Definition community_guild : Guild :=
  mkGuild 7 [rules_channel] [loudspeaker] ["COMMUNITY"; "WELCOME_SCREEN_ENABLED"].

(** A guild whose emoji registry holds an emoji with id [0]. *)
Definition zero_emoji_guild : Guild :=
  mkGuild 8 [rules_channel] [mkEmoji 0 "zero"] ["COMMUNITY"].

Definition payload (fields : list (string * pyval)) : gmap string pyval :=
  list_to_map fields.

Definition custom_payload : gmap string pyval :=
  payload [("channel_id", VInt 12345678); ("description", VStr "Read the rules!");
           ("emoji_id", VInt 41771983); ("emoji_name", VStr "loudspeaker")].

Definition unicode_payload : gmap string pyval :=
  payload [("channel_id", VInt 12345678); ("description", VStr "Read the rules!");
           ("emoji_id", VNone); ("emoji_name", VStr "!")].

Definition no_emoji_payload : gmap string pyval :=
  payload [("channel_id", VInt 12345678); ("description", VStr "Read the rules!");
           ("emoji_name", VNone)].

(** Both emoji keys missing. *)
Definition bare_payload : gmap string pyval :=
  payload [("channel_id", VInt 12345678); ("description", VStr "Read the rules!")].

(** An emoji id of [0] next to a literal name. *)
Definition zero_id_payload : gmap string pyval :=
  payload [("channel_id", VInt 12345678); ("description", VStr "Read the rules!");
           ("emoji_id", VInt 0); ("emoji_name", VStr "!")].

(** A channel the guild does not have (any more). *)
Definition deleted_channel_payload : gmap string pyval :=
  payload [("channel_id", VInt 87654321); ("description", VStr "Announcements");
           ("emoji_id", VNone); ("emoji_name", VNone)].

Definition screen_payload : pyval :=
  VDict (payload [("description", VStr "Welcome!");
                  ("welcome_channels", VList [VDict custom_payload; VDict unicode_payload])]).

Definition rules_entry : WelcomeChannel :=
  mkWelcomeChannel (Some rules_channel) (VStr "Read the rules!") (EmojiRaw (VStr "!")).

Definition orphan_entry : WelcomeChannel :=
  mkWelcomeChannel None (VStr "Announcements") (EmojiRaw VNone).

(** Keyword arguments of [edit]. *)
Definition description_kwargs : gmap string pyval :=
  {["description" := VStr "This is a very cool community server!"]}.

Definition unrecognized_kwargs : gmap string pyval :=
  {["nick" := VStr "x"]}.

Definition none_kwargs : gmap string pyval :=
  {["welcome_channels" := VNone]}.

(** An entry hydrated from a deleted channel, then something that is no
    entry. *)
Definition orphan_then_invalid_kwargs : gmap string pyval :=
  {["welcome_channels" := VList [VWelcomeChannel orphan_entry; VInt 5]]}.

Definition sample_world : World :=
  mkWorld community_guild (mkWelcomeScreen (VStr "Hello") [rules_entry]) [].

(** ** The counter view of [examples/views/counter.py] *)

(** [discord.ButtonStyle], with its aliases [green] and [red]. *)
Inductive ButtonStyle :=
| style_primary
| style_secondary
| style_success
| style_danger
| style_link.

Definition ButtonStyle_green : ButtonStyle := style_success.
Definition ButtonStyle_red : ButtonStyle := style_danger.

(** The attributes of a [discord.ui.Button] that [count] reads or assigns. *)
Record Button := mkButton {
  label : option string;
  style : ButtonStyle;
  disabled : bool;
}.

(** The button the decorator makes: [label='0'], red, not disabled. *)
Definition Counter_button : Button :=
  mkButton (Some "0") ButtonStyle_red false.

(** The view and the message edits it asked for, oldest first; each edit
    carries the view, that is the button as it then was. *)
Record CounterWorld := mkCounterWorld {
  c_button : Button;
  c_edits : list Button;
}.

(** [str(n)] of an [int]: its decimal digits, with a minus sign when
    negative. *)
Definition py_str (n : Z) : string :=
  NilZero.string_of_int (Z.to_int n).

(** [button.label] as a value: a [str] or [None]. *)
Definition label_value (button : Button) : pyval :=
  match label button with
  | Some s => VStr s
  | None => VNone
  end.

Section CounterView.

(** Python's built-in [int] on a [str], as before. *)
Variable int_of_str : string → option Z.

(** [interaction.response.edit_message(view=self)]: Discord's answer to
    the edit of the message, for the view as sent. *)
Variable edit_message : Button → result unit.

(** [Counter.count(self, button, interaction)] *)
Definition count (w : CounterWorld) : result unit * CounterWorld :=
  let button := c_button w in
  match (if py_truthy (label_value button)
         then py_int int_of_str (label_value button)
         else Ok 0) with
  | Raise e => (Raise e, w)
  | Ok number =>
      let button1 :=
        if (5 <=? number + 1)%Z
        then mkButton (label button) ButtonStyle_green true
        else button in
      let button2 :=
        mkButton (Some (py_str (number + 1))) (style button1) (disabled button1) in
      (* Make sure to update the message with our updated selves *)
      (edit_message button2, mkCounterWorld button2 (c_edits w ++ [button2]))
  end.

(** The button pressed [k] times in a row, as long as no press raises. *)
Fixpoint presses (k : nat) (w : CounterWorld) : result unit * CounterWorld :=
  match k with
  | O => (Ok tt, w)
  | S k' =>
      match count w with
      | (Ok _, w') => presses k' w'
      | (Raise e, w') => (Raise e, w')
      end
  end.

(** The button after [n] successful presses of [Counter_button]. *)
Definition counted (n : Z) : Button :=
  mkButton (Some (py_str n))
           (if (5 <=? n)%Z then ButtonStyle_green else ButtonStyle_red)
           (5 <=? n)%Z.

End CounterView.

(** A Discord that accepts every edit of the message. *)
Definition accepting : Button → result unit := λ _, Ok tt.

(** A Discord that refuses every edit. *)
Definition refusing : Button → result unit := λ _, Raise HTTPException.

(** An entry whose custom emoji the guild has. *)
Definition loud_entry : WelcomeChannel :=
  mkWelcomeChannel (Some rules_channel) (VStr "Watch out for announcements!")
                   (EmojiObj (TagEmoji loudspeaker)).

(** The id of an emoji the guild does not have (any more). *)
Definition deleted_emoji_payload : gmap string pyval :=
  payload [("channel_id", VInt 12345678); ("description", VStr "Read the rules!");
           ("emoji_id", VInt 99); ("emoji_name", VStr "gone")].

(** A screen payload whose second channel lacks the key [description]. *)
Definition broken_screen_payload : pyval :=
  VDict (payload [("description", VStr "Welcome!");
                  ("welcome_channels",
                   VList [VDict custom_payload;
                          VDict (payload [("channel_id", VInt 12345678)])])]).

Definition entries_kwargs : gmap string pyval :=
  payload [("enabled", VBool true);
           ("welcome_channels",
            VList [VWelcomeChannel rules_entry; VWelcomeChannel loud_entry])].

Definition invalid_kwargs : gmap string pyval :=
  {["welcome_channels" := VList [VWelcomeChannel rules_entry; VStr "rules"]]}.

(** * Properties *)

Section Properties.

Variable int_of_str : string → option Z.
Variable transport : Z → gmap string pyval → result pyval.

(** ** Helper lemmas *)

Lemma result_mapM_Ok {A B : Type} (f : A → result B) (l : list A) (l' : list B) :
  result_mapM f l = Ok l' ↔ Forall2 (λ x y, f x = Ok y) l l'.
Proof.
  revert l'. induction l as [|x l IH]; intros l'; simpl.
  - split.
    + intros [= <-]. constructor.
    + intros H. inversion H. reflexivity.
  - split.
    + destruct (f x) as [y|e] eqn:Hx; simpl; [|discriminate].
      destruct (result_mapM f l) as [ys|e] eqn:Hl; simpl; [|discriminate].
      intros [= <-]. constructor; [exact Hx|]. by apply IH.
    + intros H. inversion H as [|? y ? ys Hx Hl]; subst.
      rewrite Hx. simpl. apply IH in Hl. rewrite Hl. reflexivity.
Qed.

Lemma result_mapM_total {A B : Type} (f : A → result B) (l : list A) :
  (∀ x, x ∈ l → ∃ y, f x = Ok y) → ∃ l', result_mapM f l = Ok l'.
Proof.
  induction l as [|x l IH]; intros H; simpl.
  - by eexists.
  - destruct (H x) as [y Hy]; [by left|].
    destruct IH as [ys Hys]; [intros x' Hx'; apply H; by right|].
    exists (y :: ys). by rewrite Hy; simpl; rewrite Hys.
Qed.

Lemma get_emoji_id (emojis : list Emoji) (z : Z) (e : Emoji) :
  get emojis (VInt z) = Some e → emoji_id e = z ∧ e ∈ emojis.
Proof.
  simpl. intros H. apply find_some in H as [Hin Heq].
  split; [by apply Z.eqb_eq | by apply list_elem_of_In].
Qed.

Lemma get_channel_id (guild : Guild) (v : pyval) (c : Channel) :
  get_channel guild v = Some c → v = VInt (channel_id c).
Proof.
  destruct v; simpl; try discriminate.
  intros H. apply find_some in H as [_ Heq]. apply Z.eqb_eq in Heq. by subst.
Qed.

Lemma dict_truthy (d : gmap string pyval) :
  py_truthy (VDict d) = true ↔ d ≠ ∅.
Proof.
  simpl. rewrite negb_true_iff, Nat.eqb_neq. apply map_size_non_empty_iff.
Qed.

Lemma get_as_snowflake_int (p : gmap string pyval) (key : string) (z : Z) :
  p !! key = Some (VInt z) →
  _get_as_snowflake int_of_str (VDict p) key = Ok (VInt z).
Proof.
  intros H. unfold _get_as_snowflake. simpl. rewrite H. simpl.
  destruct (Z.eqb_spec z 0) as [->|]; reflexivity.
Qed.

Lemma get_as_snowflake_missing (p : gmap string pyval) (key : string) :
  p !! key = None →
  _get_as_snowflake int_of_str (VDict p) key = Ok VNone.
Proof. intros H. unfold _get_as_snowflake. simpl. by rewrite H. Qed.

Lemma get_as_snowflake_null (p : gmap string pyval) (key : string) :
  p !! key = Some VNone →
  _get_as_snowflake int_of_str (VDict p) key = Ok VNone.
Proof. intros H. unfold _get_as_snowflake. simpl. by rewrite H. Qed.

(** An id that arrives as a string is converted: [value and int(value)]. *)
Lemma get_as_snowflake_str (p : gmap string pyval) (key s : string) (z : Z) :
  p !! key = Some (VStr s) → s ≠ "" → int_of_str s = Some z →
  _get_as_snowflake int_of_str (VDict p) key = Ok (VInt z).
Proof.
  intros H Hs Hz. unfold _get_as_snowflake. simpl. rewrite H. simpl.
  destruct (String.eqb_spec s "") as [|_]; [done|]. simpl. by rewrite Hz.
Qed.

(** Hydration with a custom emoji: an integer id other than [0]. *)
Lemma from_dict_custom (p : gmap string pyval) (guild : Guild)
    (c z : Z) (d n : pyval) :
  p !! "channel_id" = Some (VInt c) →
  p !! "description" = Some d →
  p !! "emoji_id" = Some (VInt z) → z ≠ 0 →
  p !! "emoji_name" = Some n →
  _from_dict int_of_str (VDict p) guild
  = Ok (mkWelcomeChannel (get_channel guild (VInt c)) d (custom_emoji guild z)).
Proof.
  intros Hc Hd Hz Hnz Hn. unfold _from_dict.
  rewrite (get_as_snowflake_int _ _ _ Hc), (get_as_snowflake_int _ _ _ Hz).
  simpl. rewrite Hd, Hn. simpl.
  destruct (Z.eqb_spec z 0) as [|_]; [done|]. reflexivity.
Qed.

(** Hydration without a custom emoji: the id is missing, null or [0]. *)
Lemma from_dict_literal (p : gmap string pyval) (guild : Guild)
    (c : Z) (d n : pyval) :
  p !! "channel_id" = Some (VInt c) →
  p !! "description" = Some d →
  p !! "emoji_id" = None ∨ p !! "emoji_id" = Some VNone
    ∨ p !! "emoji_id" = Some (VInt 0) →
  p !! "emoji_name" = Some n →
  _from_dict int_of_str (VDict p) guild
  = Ok (mkWelcomeChannel (get_channel guild (VInt c)) d (EmojiRaw n)).
Proof.
  intros Hc Hd Hz Hn. unfold _from_dict.
  rewrite (get_as_snowflake_int _ _ _ Hc).
  destruct Hz as [Hz|[Hz|Hz]].
  - rewrite (get_as_snowflake_missing _ _ Hz). simpl. by rewrite Hd, Hn.
  - rewrite (get_as_snowflake_null _ _ Hz). simpl. by rewrite Hd, Hn.
  - rewrite (get_as_snowflake_int _ _ _ Hz). simpl. by rewrite Hd, Hn.
Qed.

(** X19: a payload without the key [emoji_name] does not hydrate, whatever
    its other fields. *)
Lemma from_dict_emoji_name_required (p : gmap string pyval) (guild : Guild) :
  wire_shape p = true →
  p !! "emoji_name" = None →
  _from_dict int_of_str (VDict p) guild = Raise (KeyError "emoji_name").
Proof.
  unfold wire_shape. intros Hw Hn.
  destruct (p !! "channel_id") as [[]|] eqn:Hc; try discriminate.
  destruct (p !! "description") as [[]|] eqn:Hd; try discriminate.
  unfold _from_dict. rewrite (get_as_snowflake_int _ _ _ Hc). simpl. rewrite Hd. simpl.
  destruct (p !! "emoji_id") as [[]|] eqn:Hz; try discriminate.
  - rewrite (get_as_snowflake_null _ _ Hz). simpl. by rewrite Hn.
  - rewrite (get_as_snowflake_int _ _ _ Hz). simpl. by rewrite Hn.
  - rewrite (get_as_snowflake_missing _ _ Hz). simpl. by rewrite Hn.
Qed.

Lemma custom_emoji_found (guild : Guild) (z : Z) (t : EmojiTag) :
  custom_emoji guild z = EmojiObj t →
  ∃ e, t = TagEmoji e ∧ emoji_id e = z ∧ e ∈ guild_emojis guild.
Proof.
  unfold custom_emoji.
  destruct (get (guild_emojis guild) (VInt z)) as [e|] eqn:He; [|discriminate].
  intros [= <-]. exists e. split; [done|]. by apply get_emoji_id.
Qed.

Lemma custom_emoji_not_found (guild : Guild) (z : Z) (v : pyval) :
  custom_emoji guild z = EmojiRaw v →
  v = VNone ∧ ∀ e, e ∈ guild_emojis guild → emoji_id e ≠ z.
Proof.
  unfold custom_emoji. simpl.
  destruct (find _ _) as [e|] eqn:He; [discriminate|].
  intros [= <-]. split; [done|]. intros e Hin Heq.
  apply list_elem_of_In in Hin.
  pose proof (find_none _ _ He e Hin) as Hf. simpl in Hf.
  apply Z.eqb_neq in Hf. done.
Qed.

(** Serialisation of an entry whose channel is there. *)
Lemma to_dict_with_channel (c : Channel) (d : pyval) (emoji : emoji_value) :
  to_dict (mkWelcomeChannel (Some c) d emoji)
  = Ok (<["emoji_name" := match emoji with
                           | EmojiObj t => tag_name t
                           | EmojiRaw v => v
                           end]>
        (<["emoji_id" := match emoji with
                         | EmojiObj t => tag_id t
                         | EmojiRaw _ => VNone
                         end]>
         (<["description" := d]> {["channel_id" := VInt (channel_id c)]}))).
Proof. destruct emoji; reflexivity. Qed.

(** Serialisation of an entry whose channel is [None]. *)
Lemma to_dict_without_channel (d : pyval) (emoji : emoji_value) :
  to_dict (mkWelcomeChannel None d emoji) = Raise AttributeError.
Proof. reflexivity. Qed.

Lemma to_dict_lookups (c : Channel) (d : pyval) (emoji : emoji_value)
    (ret : gmap string pyval) :
  to_dict (mkWelcomeChannel (Some c) d emoji) = Ok ret →
  ret !! "channel_id" = Some (VInt (channel_id c)) ∧
  ret !! "description" = Some d ∧
  ret !! "emoji_id" = Some (match emoji with
                            | EmojiObj t => tag_id t
                            | EmojiRaw _ => VNone
                            end) ∧
  ret !! "emoji_name" = Some (match emoji with
                              | EmojiObj t => tag_name t
                              | EmojiRaw v => v
                              end).
Proof.
  rewrite to_dict_with_channel. intros [= <-].
  repeat split; by simplify_map_eq.
Qed.

(** ** Hydration and serialisation of a welcome channel *)

(** C1 (as amended): for every payload of the wire shape that the guild
    resolves, that has the key [emoji_name] and whose [emoji_id] is not [0],
    serialising the hydrated entry gives back the payload's [channel_id]
    and [description] and the same emoji representation: id and name for a
    custom emoji, a null id and the payload's name otherwise. *)
Theorem round_trip_valid (guild : Guild) (p : gmap string pyval) :
  valid_payload guild p = true →
  is_Some (p !! "emoji_name") →
  p !! "emoji_id" ≠ Some (VInt 0) →
  round_trip int_of_str guild p.
Proof.
  unfold valid_payload, wire_shape. intros Hv [n Hn] Hz.
  destruct (p !! "channel_id") as [[| |c| | | |]|] eqn:Hc; try discriminate.
  destruct (p !! "description") as [[| | |s| | |]|] eqn:Hd; try discriminate.
  apply andb_true_iff in Hv as [Hv Hemoji].
  apply andb_true_iff in Hv as [Hw Hchan].
  apply bool_decide_eq_true in Hchan as [ch Hch].
  pose proof (get_channel_id _ _ _ Hch) as [= ->].
  unfold round_trip, same_emoji_representation.
  destruct (p !! "emoji_id") as [[| |z| | | |]|] eqn:Hid.
  - eexists _, _. split.
    { apply (from_dict_literal p guild (channel_id ch) (VStr s) n); auto. }
    rewrite Hch. split; [apply to_dict_with_channel|].
    rewrite Hn. simpl. repeat split; by simplify_map_eq.
  - by simpl in Hw.
  - apply bool_decide_eq_true in Hemoji as [e He].
    eexists _, _. split.
    { eapply from_dict_custom; eauto. congruence. }
    rewrite Hch. split; [apply to_dict_with_channel|].
    unfold custom_emoji. rewrite He.
    pose proof (get_emoji_id _ _ _ He) as [Hz' _].
    split; [by simplify_map_eq|]. split; [by simplify_map_eq|].
    split; [by simplify_map_eq|].
    exists e. split; [done|]. by simplify_map_eq.
  - by simpl in Hw.
  - by simpl in Hw.
  - by simpl in Hw.
  - by simpl in Hw.
  - eexists _, _. split.
    { apply (from_dict_literal p guild (channel_id ch) (VStr s) n); auto. }
    rewrite Hch. split; [apply to_dict_with_channel|].
    rewrite Hn. simpl. repeat split; by simplify_map_eq.
Qed.

(** C2 (as amended): for every payload whose [emoji_id] is present and an
    integer other than [0], the entry [_from_dict] returns has as its emoji
    the guild's custom emoji with that id, or nothing when the registry has
    none with that id, the payload's [emoji_name] playing no part. *)
Theorem from_dict_custom_emoji (guild : Guild) (p : gmap string pyval)
    (z : Z) (entry : WelcomeChannel) :
  p !! "emoji_id" = Some (VInt z) →
  z ≠ 0 →
  _from_dict int_of_str (VDict p) guild = Ok entry →
  wc_emoji entry = custom_emoji guild z ∧
  ((∃ e, wc_emoji entry = EmojiObj (TagEmoji e) ∧
         emoji_id e = z ∧ e ∈ guild_emojis guild)
   ∨ (wc_emoji entry = EmojiRaw VNone ∧
      ∀ e, e ∈ guild_emojis guild → emoji_id e ≠ z)).
Proof.
  intros Hz Hnz. unfold _from_dict.
  destruct (_get_as_snowflake int_of_str (VDict p) "channel_id") as [cid|];
    [|simpl; discriminate].
  simpl. destruct (p !! "description") as [d|]; [|simpl; discriminate].
  rewrite (get_as_snowflake_int _ _ _ Hz). simpl.
  destruct (p !! "emoji_name") as [n|]; [|simpl; discriminate]. simpl.
  destruct (Z.eqb_spec z 0) as [|_]; [done|]. simpl.
  intros [= <-]. change (wc_emoji _) with (custom_emoji guild z).
  split; [done|].
  destruct (custom_emoji guild z) as [t|v] eqn:He.
  - left. apply custom_emoji_found in He as (e & -> & ? & ?). exists e. auto.
  - right. apply custom_emoji_not_found in He as [-> ?]. auto.
Qed.

(** C6 (as amended): for every payload of the wire shape in which the key
    [emoji_id] is missing and the key [emoji_name] is present with the
    value null, [_from_dict] returns an entry, and its emoji is absent. *)
Theorem from_dict_null_emoji_name (guild : Guild) (p : gmap string pyval) :
  wire_shape p = true →
  p !! "emoji_id" = None →
  p !! "emoji_name" = Some VNone →
  ∃ entry, _from_dict int_of_str (VDict p) guild = Ok entry ∧
           wc_emoji entry = EmojiRaw VNone.
Proof.
  unfold wire_shape. intros Hw Hid Hn.
  destruct (p !! "channel_id") as [[| |c| | | |]|] eqn:Hc; try discriminate.
  destruct (p !! "description") as [[| | |s| | |]|] eqn:Hd; try discriminate.
  eexists. split; [apply (from_dict_literal p guild c (VStr s) VNone); auto|].
  reflexivity.
Qed.

(** ** The welcome screen *)

(** C9: [enabled] is true exactly when ['WELCOME_SCREEN_ENABLED'] is among
    the guild's features at the moment of the read: after the guild's
    features are replaced, the welcome screen left as it is, the next read
    answers for the new features. *)
Theorem enabled_is_derived (w : World) (features : list string) :
  (enabled w = true ↔ "WELCOME_SCREEN_ENABLED" ∈ guild_features (w_guild w)) ∧
  (enabled (set_guild_features features w) = true
   ↔ "WELCOME_SCREEN_ENABLED" ∈ features) ∧
  w_screen (set_guild_features features w) = w_screen w.
Proof.
  unfold enabled. repeat split; try apply bool_decide_eq_true.
  all: simpl; intros H; by apply bool_decide_eq_true.
Qed.

(** [_store] reads the guild and assigns the two attributes: the guild and
    the request log stay as they are, and what it assigns does not depend
    on the log. *)
Lemma store_sent (data : pyval) (gid : Z) (fields : gmap string pyval) (w : World) :
  _store int_of_str data (sent gid fields w)
  = (fst (_store int_of_str data w), sent gid fields (snd (_store int_of_str data w))).
Proof.
  unfold _store, mbind, M_bind, lift, set_description, set_welcome_channels,
    self_guild, sent. simpl.
  destruct (py_getitem data "description"); [|reflexivity]. simpl.
  destruct (py_get data "welcome_channels" (VList [])); [|reflexivity]. simpl.
  destruct (py_iter a0); [|reflexivity]. simpl.
  destruct (result_mapM _ a1); reflexivity.
Qed.

Lemma store_frame (data : pyval) (w : World) :
  w_guild (snd (_store int_of_str data w)) = w_guild w ∧
  w_requests (snd (_store int_of_str data w)) = w_requests w.
Proof.
  unfold _store, mbind, M_bind, lift, set_description, set_welcome_channels,
    self_guild. simpl.
  destruct (py_getitem data "description"); [|done]. simpl.
  destruct (py_get data "welcome_channels" (VList [])); [|done]. simpl.
  destruct (py_iter a0); [|done]. simpl.
  destruct (result_mapM _ a1); done.
Qed.

(** C8: [_store] sets [description] to the payload's description and
    [welcome_channels] to the entries [_from_dict] makes of the elements of
    the payload's [welcome_channels], one per element and in the same
    order; without the key [welcome_channels] the list is empty. *)
Theorem store_hydrates_in_order (p : gmap string pyval) (w : World)
    (d : pyval) (items : list pyval) :
  p !! "description" = Some d →
  p !! "welcome_channels" = Some (VList items)
    ∨ (p !! "welcome_channels" = None ∧ items = []) →
  (∀ item, item ∈ items →
     ∃ entry, _from_dict int_of_str item (w_guild w) = Ok entry) →
  ∃ entries,
    _store int_of_str (VDict p) w
    = (Ok tt, mkWorld (w_guild w) (mkWelcomeScreen d entries) (w_requests w)) ∧
    Forall2 (λ item entry, _from_dict int_of_str item (w_guild w) = Ok entry)
            items entries ∧
    length entries = length items ∧
    (p !! "welcome_channels" = None → entries = []).
Proof.
  intros Hd Hwc Hall.
  destruct (result_mapM_total _ _ Hall) as [entries Hentries].
  exists entries.
  pose proof (proj1 (result_mapM_Ok _ _ _) Hentries) as HF.
  split; [|split; [exact HF|split]].
  - unfold _store, mbind, M_bind, lift, set_description, set_welcome_channels,
      self_guild. simpl. rewrite Hd. simpl.
    destruct Hwc as [->|[-> ->]]; simpl.
    + rewrite Hentries. reflexivity.
    + simpl in Hentries. injection Hentries as <-. reflexivity.
  - symmetry. eapply Forall2_length, HF.
  - intros Hnone. destruct Hwc as [Hwc|[_ ->]]; [congruence|].
    by inversion HF.
Qed.

(** ** [edit] *)

Lemma edit_fields_non_empty (kwargs fields : gmap string pyval) :
  edit_fields kwargs = Ok fields → kwargs ≠ ∅ → fields ≠ ∅.
Proof.
  unfold edit_fields.
  destruct (kwargs !! "welcome_channels") as [v|].
  - destruct (py_iter v) as [items|]; simpl; [|discriminate].
    destruct (serialise items []) as [l|]; simpl; [|discriminate].
    intros [= <-] _. apply insert_non_empty.
  - by intros [= <-].
Qed.

Lemma edit_no_fields (w : World) :
  edit int_of_str transport ∅ w = (Ok tt, w).
Proof. reflexivity. Qed.

(** What [edit] does once the fields to send are settled: nothing at all
    is sent when there are none. *)
Lemma edit_sends (kwargs fields : gmap string pyval) (w : World) :
  edit_fields kwargs = Ok fields →
  fields ≠ ∅ →
  edit int_of_str transport kwargs w
  = match transport (guild_id (w_guild w)) fields with
    | Ok data => _store int_of_str data (sent (guild_id (w_guild w)) fields w)
    | Raise e => (Raise e, sent (guild_id (w_guild w)) fields w)
    end.
Proof.
  intros Hf Hne. apply dict_truthy in Hne.
  unfold edit, mbind at 1, M_bind at 1, lift. rewrite Hf, Hne.
  unfold mbind, M_bind, self_guild, http_edit_welcome_screen. simpl.
  fold (sent (guild_id (w_guild w)) fields w).
  destruct (transport _ _); reflexivity.
Qed.

Lemma edit_validation_error (kwargs : gmap string pyval) (e : exn) (w : World) :
  edit_fields kwargs = Raise e →
  edit int_of_str transport kwargs w = (Raise e, w).
Proof.
  intros Hf. unfold edit, mbind, M_bind, lift. by rewrite Hf.
Qed.

(** C5: when [edit] gets as far as the request and the request fails, the
    very exception the transport raised comes out and the welcome screen
    keeps its attributes; when the request succeeds, [edit] ends as
    [_store] of the response does, so that the attributes are those
    hydration of the response produces. *)
Theorem edit_atomic (kwargs fields : gmap string pyval) (w : World) :
  kwargs ≠ ∅ →
  edit_fields kwargs = Ok fields →
  (∀ e, transport (guild_id (w_guild w)) fields = Raise e →
     ∃ w', edit int_of_str transport kwargs w = (Raise e, w') ∧
           w_screen w' = w_screen w ∧
           w_requests w' = (w_requests w ++ [(guild_id (w_guild w), fields)])%list) ∧
  (∀ data, transport (guild_id (w_guild w)) fields = Ok data →
     edit int_of_str transport kwargs w
     = _store int_of_str data (sent (guild_id (w_guild w)) fields w) ∧
     fst (edit int_of_str transport kwargs w) = fst (_store int_of_str data w) ∧
     w_screen (snd (edit int_of_str transport kwargs w))
     = w_screen (snd (_store int_of_str data w))).
Proof.
  intros Hne Hf.
  pose proof (edit_sends _ _ w Hf (edit_fields_non_empty _ _ Hf Hne)) as He.
  split.
  - intros e Ht. rewrite Ht in He. eexists. split; [exact He|]. done.
  - intros data Ht. rewrite Ht in He. rewrite He, store_sent. done.
Qed.

(** C3 (as amended): [edit] returns without a request and without a change
    exactly when the call carries no field at all; a field that is not one
    of [description], [welcome_channels] and [enabled] is a field too. *)
Theorem edit_noop_iff_no_field (kwargs : gmap string pyval) (w : World) :
  edit int_of_str transport kwargs w = (Ok tt, w) ↔ kwargs = ∅.
Proof.
  split; [|intros ->; apply edit_no_fields].
  intros He. destruct (decide (dom kwargs = ∅)) as [Hdom|Hdom].
  { by apply dom_empty_iff_L. }
  assert (Hne : kwargs ≠ ∅) by (intros ->; by rewrite dom_empty_L in Hdom).
  exfalso. destruct (edit_fields kwargs) as [fields|e] eqn:Hf.
  - rewrite (edit_sends _ _ w Hf (edit_fields_non_empty _ _ Hf Hne)) in He.
    assert (Hreq : w_requests w
                   = (w_requests w ++ [(guild_id (w_guild w), fields)])%list).
    { destruct (transport _ _) as [data|e].
      - rewrite store_sent in He. injection He as _ He.
        apply (f_equal w_requests) in He. simpl in He.
        by rewrite (proj2 (store_frame data w)) in He.
      - discriminate. }
    apply (f_equal length) in Hreq. rewrite length_app in Hreq. simpl in Hreq. lia.
  - rewrite (edit_validation_error _ _ w Hf) in He. discriminate.
Qed.

(** C10: with [welcome_channels=None], [edit] raises the [TypeError] of
    iterating [None], not the invalid-argument error; nothing is sent and
    nothing changes. *)
Theorem edit_welcome_channels_None (kwargs : gmap string pyval) (w : World) :
  kwargs !! "welcome_channels" = Some VNone →
  edit int_of_str transport kwargs w = (Raise TypeError, w) ∧
  (∀ msg, edit int_of_str transport kwargs w ≠ (Raise (InvalidArgument msg), w)).
Proof.
  intros H.
  assert (He : edit int_of_str transport kwargs w = (Raise TypeError, w)).
  { apply edit_validation_error. unfold edit_fields. by rewrite H. }
  split; [exact He|]. intros msg. rewrite He. discriminate.
Qed.

(** ** Lists that are not lists of entries *)

Lemma serialise_rejects (pre post serialised : list pyval) (v : pyval) :
  forallb is_resolved_entry pre = true →
  is_entry v = false →
  serialise (pre ++ v :: post) serialised
  = Raise (InvalidArgument welcome_channels_message).
Proof.
  revert serialised. induction pre as [|x pre IH]; intros serialised Hpre Hv.
  - simpl. destruct v; try reflexivity. discriminate.
  - simpl in Hpre. apply andb_true_iff in Hpre as [Hx Hpre].
    destruct x as [| | | | | |[[c|] d emoji]]; try discriminate.
    simpl. rewrite to_dict_with_channel. simpl. by apply IH.
Qed.

Lemma serialise_non_entry (items serialised : list pyval) :
  existsb (λ v, negb (is_entry v)) items = true →
  ∃ e, serialise items serialised = Raise e.
Proof.
  revert serialised. induction items as [|x items IH]; intros serialised H.
  - discriminate.
  - simpl in H. destruct x as [| | | | | |wc]; simpl; try by eexists.
    destruct (to_dict wc) as [d|e]; simpl; [by apply IH | by eexists].
Qed.

(** X17: a list with an element that is no entry is rejected with the
    invalid-argument error when the entries before that element have their
    channels; nothing is sent and nothing changes. *)
Lemma edit_rejects_non_entry (kwargs : gmap string pyval)
    (pre post : list pyval) (v : pyval) (w : World) :
  kwargs !! "welcome_channels" = Some (VList (pre ++ v :: post)) →
  forallb is_resolved_entry pre = true →
  is_entry v = false →
  edit int_of_str transport kwargs w
  = (Raise (InvalidArgument welcome_channels_message), w).
Proof.
  intros Hk Hpre Hv. apply edit_validation_error.
  unfold edit_fields. rewrite Hk. simpl.
  by rewrite serialise_rejects.
Qed.

(** X18: whatever the entries before it, a list with an element that is no
    entry makes [edit] raise before anything is sent or changed. *)
Lemma edit_non_entry_never_sends (kwargs : gmap string pyval)
    (items : list pyval) (w : World) :
  kwargs !! "welcome_channels" = Some (VList items) →
  existsb (λ v, negb (is_entry v)) items = true →
  ∃ e, edit int_of_str transport kwargs w = (Raise e, w).
Proof.
  intros Hk Hitems. destruct (serialise_non_entry items [] Hitems) as [e He].
  exists e. apply edit_validation_error.
  unfold edit_fields. rewrite Hk. simpl. by rewrite He.
Qed.

(** An entry with its channel serialises, to a dict with the four wire
    fields. *)
Lemma to_dict_total_with_channel (self : WelcomeChannel) :
  is_Some (wc_channel self) →
  ∃ ret, to_dict self = Ok ret ∧ has_wire_fields ret.
Proof.
  destruct self as [[c|] d emoji]; intros [c' Hc]; [|discriminate].
  eexists. split; [apply to_dict_with_channel|].
  unfold has_wire_fields. repeat split; by simplify_map_eq.
Qed.

Lemma to_dict_raises_iff (self : WelcomeChannel) :
  to_dict self = Raise AttributeError ↔ wc_channel self = None.
Proof.
  destruct self as [[c|] d emoji]; simpl.
  - rewrite to_dict_with_channel. split; discriminate.
  - done.
Qed.

End Properties.

(** * The statements at concrete inputs *)

(** A custom emoji goes round: id and name come back. *)
Lemma round_trip_valid_witness :
  valid_payload community_guild custom_payload = true ∧
  is_Some (custom_payload !! "emoji_name") ∧
  custom_payload !! "emoji_id" ≠ Some (VInt 0) ∧
  round_trip int_of_digits community_guild custom_payload.
Proof.
  assert (H1 : valid_payload community_guild custom_payload = true)
    by reflexivity.
  assert (H2 : is_Some (custom_payload !! "emoji_name"))
    by (eexists; reflexivity).
  assert (H3 : custom_payload !! "emoji_id" ≠ Some (VInt 0))
    by (vm_compute; discriminate).
  exact (conj H1 (conj H2 (conj H3
           (round_trip_valid int_of_digits community_guild custom_payload
                             H1 H2 H3)))).
Defined.

(** The claim C1 fails where the payload's emoji id is [0] and the registry
    has such an emoji (the entry gets the literal name), and where the
    payload has no key [emoji_name] (nothing is hydrated). *)
Lemma round_trip_counterexample :
  (valid_payload zero_emoji_guild zero_id_payload = true ∧
   ¬ round_trip int_of_digits zero_emoji_guild zero_id_payload) ∧
  (valid_payload community_guild bare_payload = true ∧
   ¬ round_trip int_of_digits community_guild bare_payload).
Proof.
  split; (split; [reflexivity|]).
  - intros (entry & d & Hfrom & Hto & _ & _ & Hemoji).
    vm_compute in Hfrom. injection Hfrom as <-.
    vm_compute in Hto. injection Hto as <-.
    vm_compute in Hemoji. destruct Hemoji as [Hid _]. discriminate.
  - intros (entry & d & Hfrom & _).
    vm_compute in Hfrom. discriminate.
Qed.

(** The loudspeaker emoji is found by its id. *)
Lemma from_dict_custom_emoji_witness :
  custom_payload !! "emoji_id" = Some (VInt 41771983) ∧
  41771983 ≠ 0 ∧
  wc_emoji (mkWelcomeChannel (Some rules_channel) (VStr "Read the rules!")
                             (EmojiObj (TagEmoji loudspeaker)))
  = custom_emoji community_guild 41771983.
Proof.
  assert (H1 : custom_payload !! "emoji_id" = Some (VInt 41771983))
    by reflexivity.
  assert (H2 : 41771983 ≠ 0) by lia.
  exact (conj H1 (conj H2
           (proj1 (from_dict_custom_emoji int_of_digits community_guild
                     custom_payload 41771983 _ H1 H2 eq_refl)))).
Defined.

(** The claim C2 fails for the emoji id [0]: it is present and not null,
    and the entry's emoji is the payload's [emoji_name], not what the
    registry has for the id. *)
Lemma from_dict_zero_emoji_id_counterexample :
  zero_id_payload !! "emoji_id" = Some (VInt 0) ∧
  zero_id_payload !! "emoji_name" = Some (VStr "!") ∧
  ∃ entry,
    _from_dict int_of_digits (VDict zero_id_payload) zero_emoji_guild = Ok entry ∧
    wc_emoji entry = EmojiRaw (VStr "!") ∧
    custom_emoji zero_emoji_guild 0 = EmojiObj (TagEmoji (mkEmoji 0 "zero")) ∧
    wc_emoji entry ≠ custom_emoji zero_emoji_guild 0.
Proof.
  split; [reflexivity|]. split; [reflexivity|].
  eexists. split; [reflexivity|]. split; [reflexivity|].
  split; [reflexivity|]. vm_compute. discriminate.
Qed.

(** A payload with [emoji_name] null and no [emoji_id] hydrates. *)
Lemma from_dict_null_emoji_name_witness :
  wire_shape no_emoji_payload = true ∧
  no_emoji_payload !! "emoji_id" = None ∧
  no_emoji_payload !! "emoji_name" = Some VNone ∧
  ∃ entry,
    _from_dict int_of_digits (VDict no_emoji_payload) community_guild = Ok entry ∧
    wc_emoji entry = EmojiRaw VNone.
Proof.
  assert (H1 : wire_shape no_emoji_payload = true) by reflexivity.
  assert (H2 : no_emoji_payload !! "emoji_id" = None) by reflexivity.
  assert (H3 : no_emoji_payload !! "emoji_name" = Some VNone) by reflexivity.
  exact (conj H1 (conj H2 (conj H3
           (from_dict_null_emoji_name int_of_digits community_guild
                                      no_emoji_payload H1 H2 H3)))).
Defined.

(** The claim C6 fails for a payload of the wire shape with neither emoji
    key: [data['emoji_name']] raises [KeyError]. *)
Lemma from_dict_missing_emoji_name_counterexample :
  wire_shape bare_payload = true ∧
  bare_payload !! "emoji_id" = None ∧
  bare_payload !! "emoji_name" = None ∧
  _from_dict int_of_digits (VDict bare_payload) community_guild
  = Raise (KeyError "emoji_name") ∧
  ¬ ∃ entry,
      _from_dict int_of_digits (VDict bare_payload) community_guild = Ok entry ∧
      wc_emoji entry = EmojiRaw VNone.
Proof.
  repeat (split; [reflexivity|]).
  intros (entry & H & _). vm_compute in H. discriminate.
Qed.

(** C7, at a failing input: the payload names a channel the guild does not
    have; it hydrates to an entry whose channel is [None], and [to_dict] on
    that entry raises [AttributeError] instead of returning the four
    fields. *)
Theorem to_dict_unresolved_channel_raises :
  wire_shape deleted_channel_payload = true ∧
  _from_dict int_of_digits (VDict deleted_channel_payload) community_guild
  = Ok orphan_entry ∧
  to_dict orphan_entry = Raise AttributeError ∧
  ¬ ∃ ret, to_dict orphan_entry = Ok ret ∧ has_wire_fields ret.
Proof.
  repeat (split; [reflexivity|]).
  intros (ret & H & _). discriminate.
Qed.

(** A screen payload with two channels hydrates to two entries. *)
Lemma store_hydrates_in_order_witness :
  ∃ entries,
    _store int_of_digits screen_payload sample_world
    = (Ok tt, mkWorld community_guild
                      (mkWelcomeScreen (VStr "Welcome!") entries) []) ∧
    length entries = 2%nat.
Proof.
  assert (H1 : payload [("description", VStr "Welcome!");
                        ("welcome_channels",
                         VList [VDict custom_payload; VDict unicode_payload])]
               !! "description" = Some (VStr "Welcome!")) by reflexivity.
  assert (H3 : ∀ item, item ∈ [VDict custom_payload; VDict unicode_payload] →
                 ∃ entry, _from_dict int_of_digits item (w_guild sample_world)
                          = Ok entry).
  { intros item Hin. apply elem_of_cons in Hin as [->|Hin]; [by eexists|].
    apply elem_of_cons in Hin as [->|Hin]; [by eexists|].
    by apply elem_of_nil in Hin. }
  destruct (store_hydrates_in_order int_of_digits _ sample_world _ _ H1
              (or_introl eq_refl) H3) as (entries & Hs & _ & Hlen & _).
  exists entries. split; [exact Hs | exact Hlen].
Defined.

(** A refused request: [Forbidden] comes out, the screen is as before. *)
Lemma edit_atomic_witness :
  description_kwargs ≠ ∅ ∧
  edit_fields description_kwargs = Ok description_kwargs ∧
  ∃ w', edit int_of_digits forbidden_transport description_kwargs sample_world
        = (Raise Forbidden, w') ∧
        w_screen w' = w_screen sample_world ∧
        w_requests w' = [(7, description_kwargs)].
Proof.
  assert (H1 : description_kwargs ≠ ∅) by apply map_non_empty_singleton.
  assert (H2 : edit_fields description_kwargs = Ok description_kwargs)
    by reflexivity.
  exact (conj H1 (conj H2
           (proj1 (edit_atomic int_of_digits forbidden_transport
                     description_kwargs description_kwargs sample_world H1 H2)
                  Forbidden eq_refl))).
Defined.

(** The claim C3 fails for a call whose only field is none of the three:
    the request goes out with that field. *)
Lemma edit_unrecognized_field_counterexample :
  unrecognized_kwargs !! "description" = None ∧
  unrecognized_kwargs !! "welcome_channels" = None ∧
  unrecognized_kwargs !! "enabled" = None ∧
  w_requests sample_world = [] ∧
  w_requests (snd (edit int_of_digits forbidden_transport
                        unrecognized_kwargs sample_world))
  = [(7, unrecognized_kwargs)].
Proof. repeat split; reflexivity. Qed.

(** C4, at a failing input: the list holds an entry whose channel is [None]
    and then a number; [edit] raises the [AttributeError] of serialising the
    entry, not the invalid-argument error. Nothing is sent or changed. *)
Theorem edit_unresolved_entry_before_invalid_element :
  orphan_then_invalid_kwargs !! "welcome_channels"
  = Some (VList [VWelcomeChannel orphan_entry; VInt 5]) ∧
  is_entry (VInt 5) = false ∧
  edit int_of_digits forbidden_transport orphan_then_invalid_kwargs sample_world
  = (Raise AttributeError, sample_world) ∧
  edit int_of_digits forbidden_transport orphan_then_invalid_kwargs sample_world
  ≠ (Raise (InvalidArgument welcome_channels_message), sample_world).
Proof.
  repeat (split; [reflexivity|]). vm_compute. discriminate.
Qed.

(** [edit(welcome_channels=None)] on the sample screen. *)
Lemma edit_welcome_channels_None_witness :
  none_kwargs !! "welcome_channels" = Some VNone ∧
  edit int_of_digits forbidden_transport none_kwargs sample_world
  = (Raise TypeError, sample_world).
Proof.
  assert (H1 : none_kwargs !! "welcome_channels" = Some VNone) by reflexivity.
  exact (conj H1
           (proj1 (edit_welcome_channels_None int_of_digits forbidden_transport
                     none_kwargs sample_world H1))).
Defined.

(** A request that succeeds: the welcome screen ends up with what the
    response hydrates to, whatever was asked for. *)
Example edit_end_to_end :
  edit int_of_digits (canned_transport screen_payload)
       description_kwargs sample_world
  = (Ok tt,
     mkWorld community_guild
       (mkWelcomeScreen (VStr "Welcome!")
          [mkWelcomeChannel (Some rules_channel) (VStr "Read the rules!")
                            (EmojiObj (TagEmoji loudspeaker));
           mkWelcomeChannel (Some rules_channel) (VStr "Read the rules!")
                            (EmojiRaw (VStr "!"))])
       [(7, description_kwargs)]).
Proof. reflexivity. Qed.

(** The flag follows the guild: the example of the specification. *)
Example enabled_example :
  enabled sample_world = true ∧
  enabled (set_guild_features ["COMMUNITY"] sample_world) = false.
Proof. split; reflexivity. Qed.

(** * Further properties of the welcome screen *)

Section WelcomeScreenProperties.

Variable int_of_str : string → option Z.
Variable transport : Z → gmap string pyval → result pyval.

(** [_store], step by step. *)
Lemma store_unfold (data : pyval) (w : World) :
  _store int_of_str data w
  = match py_getitem data "description" with
    | Raise e => (Raise e, w)
    | Ok d =>
        match hydrate_channels int_of_str data (w_guild w) with
        | Ok entries =>
            (Ok tt, mkWorld (w_guild w) (mkWelcomeScreen d entries) (w_requests w))
        | Raise e =>
            (Raise e,
             mkWorld (w_guild w)
                     (mkWelcomeScreen d (welcome_channels (w_screen w)))
                     (w_requests w))
        end
    end.
Proof.
  unfold _store, hydrate_channels, mbind, M_bind, lift, set_description,
    set_welcome_channels, self_guild. simpl.
  destruct (py_getitem data "description"); [|reflexivity]. simpl.
  destruct (py_get data "welcome_channels" (VList [])); [|reflexivity]. simpl.
  destruct (py_iter a0); [|reflexivity]. simpl.
  destruct (result_mapM _ a1); reflexivity.
Qed.

(** X1: an entry whose channel the guild resolves to itself, and whose
    emoji is a literal, nothing, or a custom emoji the guild finds by its
    non-zero id, serialises, and hydrating the payload gives the entry
    back. *)
Theorem to_dict_then_from_dict (guild : Guild) (c : Channel) (d : pyval)
    (emoji : emoji_value) :
  get_channel guild (VInt (channel_id c)) = Some c →
  emoji_survives guild emoji →
  ∃ ret, to_dict (mkWelcomeChannel (Some c) d emoji) = Ok ret ∧
         _from_dict int_of_str (VDict ret) guild
         = Ok (mkWelcomeChannel (Some c) d emoji).
Proof.
  intros Hc Hemoji. eexists. split; [apply to_dict_with_channel|].
  destruct emoji as [[e|id name]|v]; unfold emoji_survives in Hemoji; [|done|].
  - destruct Hemoji as [Hnz He].
    rewrite (from_dict_custom int_of_str _ guild (channel_id c) (emoji_id e) d
               (VStr (emoji_name e))); try by simplify_map_eq.
    unfold custom_emoji. by rewrite Hc, He.
  - rewrite (from_dict_literal int_of_str _ guild (channel_id c) d v);
      try by simplify_map_eq.
    + by rewrite Hc.
    + right. left. by simplify_map_eq.
Qed.

(** X2: whether [_from_dict] returns or raises, and what it raises, depends
    on the payload alone: no guild makes hydration fail or succeed, and the
    description is the payload's in every guild. *)
Theorem from_dict_outcome_guild_independent (data : pyval) (g1 g2 : Guild) :
  match _from_dict int_of_str data g1, _from_dict int_of_str data g2 with
  | Ok e1, Ok e2 => wc_description e1 = wc_description e2
  | Raise x1, Raise x2 => x1 = x2
  | _, _ => False
  end.
Proof.
  unfold _from_dict.
  destruct (_get_as_snowflake int_of_str data "channel_id"); simpl; [|done].
  destruct (py_getitem data "description"); simpl; [|done].
  destruct (_get_as_snowflake int_of_str data "emoji_id"); simpl; [|done].
  destruct (py_getitem data "emoji_name"); simpl; done.
Qed.

(** X3: a custom emoji the guild no longer has is dropped: the payload
    hydrates to an entry without emoji, and serialising that entry gives a
    null [emoji_id] and a null [emoji_name], not the payload's. *)
Theorem deleted_emoji_is_dropped (guild : Guild) (p : gmap string pyval)
    (c : Channel) (z : Z) :
  wire_shape p = true →
  p !! "channel_id" = Some (VInt (channel_id c)) →
  get_channel guild (VInt (channel_id c)) = Some c →
  p !! "emoji_id" = Some (VInt z) → z ≠ 0 →
  is_Some (p !! "emoji_name") →
  (∀ e, e ∈ guild_emojis guild → emoji_id e ≠ z) →
  ∃ entry ret,
    _from_dict int_of_str (VDict p) guild = Ok entry ∧
    wc_emoji entry = EmojiRaw VNone ∧
    to_dict entry = Ok ret ∧
    ret !! "emoji_id" = Some VNone ∧ ret !! "emoji_name" = Some VNone.
Proof.
  unfold wire_shape. intros Hw Hc Hch Hz Hnz [n Hn] Hnone.
  rewrite Hc in Hw.
  destruct (p !! "description") as [[| | |s| | |]|] eqn:Hd; try discriminate.
  assert (He : custom_emoji guild z = EmojiRaw VNone).
  { unfold custom_emoji. simpl.
    destruct (find _ _) as [e|] eqn:Hf; [|done].
    apply find_some in Hf as [Hin Heq]. apply Z.eqb_eq in Heq.
    apply list_elem_of_In in Hin. by destruct (Hnone e Hin). }
  eexists _, _. split.
  { apply (from_dict_custom int_of_str p guild (channel_id c) z (VStr s) n);
      auto. }
  rewrite Hch, He. split; [done|]. split; [apply to_dict_with_channel|].
  split; by simplify_map_eq.
Qed.

(** X4: what [to_dict] returns has the four wire keys and no other; its
    [emoji_id] is null unless the entry's emoji is an [_EmojiTag] instance,
    and then the literal value is the [emoji_name]. *)
Theorem to_dict_keys (self : WelcomeChannel) (ret : gmap string pyval) :
  to_dict self = Ok ret →
  dom ret = {["channel_id"; "description"; "emoji_id"; "emoji_name"]} ∧
  (∀ v, wc_emoji self = EmojiRaw v →
        ret !! "emoji_id" = Some VNone ∧ ret !! "emoji_name" = Some v) ∧
  ret !! "description" = Some (wc_description self).
Proof.
  destruct self as [[c|] d emoji]; [|discriminate].
  rewrite to_dict_with_channel. intros [= <-]. split; [|split].
  - rewrite !dom_insert_L, dom_singleton_L. set_solver.
  - intros v. simpl. intros ->. by simplify_map_eq.
  - by simplify_map_eq.
Qed.

(** X5: a [_store] that returns has overwritten both attributes: what it
    leaves depends on the payload and the guild alone, not on what the
    screen held, and storing the same payload again changes nothing. *)
Theorem store_overwrites (data : pyval) (w1 w2 w1' : World) :
  w_guild w1 = w_guild w2 →
  _store int_of_str data w1 = (Ok tt, w1') →
  (∃ w2', _store int_of_str data w2 = (Ok tt, w2') ∧
          w_screen w2' = w_screen w1') ∧
  _store int_of_str data w1' = (Ok tt, w1').
Proof.
  intros Hg. rewrite !store_unfold.
  destruct (py_getitem data "description") as [d|]; [|discriminate].
  rewrite <- Hg.
  destruct (hydrate_channels int_of_str data (w_guild w1)) as [entries|] eqn:Hh;
    [|discriminate].
  intros [= <-]. split; [by eexists|]. simpl. by rewrite Hh.
Qed.

(** X6: hydration is not atomic. When [_store] raises, the list of
    channels, the guild and the request log are as before, but the
    description is already the payload's whenever the payload has one. *)
Theorem store_failure_is_partial (data : pyval) (w w' : World) (e : exn) :
  _store int_of_str data w = (Raise e, w') →
  welcome_channels (w_screen w') = welcome_channels (w_screen w) ∧
  w_guild w' = w_guild w ∧ w_requests w' = w_requests w ∧
  description (w_screen w')
  = match py_getitem data "description" with
    | Ok d => d
    | Raise _ => description (w_screen w)
    end.
Proof.
  rewrite store_unfold.
  destruct (py_getitem data "description") as [d|]; [|by intros [= _ <-]].
  destruct (hydrate_channels int_of_str data (w_guild w)); [discriminate|].
  by intros [= _ <-].
Qed.

(** X7: the request is a partial update. When validation passes, the
    fields sent have exactly the keys the caller gave, and every key other
    than [welcome_channels] carries the caller's value. *)
Theorem edit_fields_keys (kwargs fields : gmap string pyval) :
  edit_fields kwargs = Ok fields →
  dom fields = dom kwargs ∧
  ∀ key, key ≠ "welcome_channels" → fields !! key = kwargs !! key.
Proof.
  unfold edit_fields.
  destruct (kwargs !! "welcome_channels") as [v|] eqn:Hk.
  - destruct (py_iter v) as [items|]; simpl; [|discriminate].
    destruct (serialise items []) as [l|]; simpl; [|discriminate].
    intros [= <-]. split.
    + rewrite dom_insert_L.
      assert ("welcome_channels" ∈ dom kwargs) as Hin
        by (apply elem_of_dom; eauto).
      apply set_eq. intros key. rewrite elem_of_union, elem_of_singleton.
      split; [intros [->|]; done | auto].
    + intros key Hkey. by rewrite lookup_insert_ne.
  - by intros [= <-].
Qed.

Lemma serialise_entries (entries : list WelcomeChannel)
    (ds : list (gmap string pyval)) (serialised : list pyval) :
  Forall2 (λ wc d, to_dict wc = Ok d) entries ds →
  serialise (VWelcomeChannel <$> entries) serialised
  = Ok (serialised ++ (VDict <$> ds))%list.
Proof.
  intros H. revert serialised.
  induction H as [|wc d entries ds Hd _ IH]; intros serialised; simpl.
  - by rewrite app_nil_r.
  - rewrite Hd. simpl. rewrite IH. by rewrite <- app_assoc.
Qed.

(** X8: a list of entries that all serialise is sent as the list of their
    payloads, one per entry and in the caller's order. *)
Theorem edit_fields_in_order (kwargs : gmap string pyval)
    (entries : list WelcomeChannel) (ds : list (gmap string pyval)) :
  kwargs !! "welcome_channels" = Some (VList (VWelcomeChannel <$> entries)) →
  Forall2 (λ wc d, to_dict wc = Ok d) entries ds →
  edit_fields kwargs
  = Ok (<["welcome_channels" := VList (VDict <$> ds)]> kwargs).
Proof.
  intros Hk Hds. unfold edit_fields. rewrite Hk. simpl.
  by rewrite (serialise_entries _ _ [] Hds).
Qed.

Lemma edit_guild (kwargs : gmap string pyval) (w : World) :
  w_guild (snd (edit int_of_str transport kwargs w)) = w_guild w.
Proof.
  unfold edit, mbind at 1, M_bind at 1, lift.
  destruct (edit_fields kwargs) as [fields|e]; [|done].
  destruct (py_truthy (VDict fields)); [|done].
  unfold mbind, M_bind, self_guild, http_edit_welcome_screen. simpl.
  destruct (transport _ _) as [data|e]; [|done].
  fold (sent (guild_id (w_guild w)) fields w).
  by rewrite (proj1 (store_frame int_of_str data _)).
Qed.

(** X9: whatever the arguments and whatever the transport answers, [edit]
    leaves the guild alone and sends at most one request: the log is as
    before, or longer by the one request made of the validated fields. *)
Theorem edit_frame (kwargs : gmap string pyval) (w : World) :
  w_guild (snd (edit int_of_str transport kwargs w)) = w_guild w ∧
  (w_requests (snd (edit int_of_str transport kwargs w)) = w_requests w ∨
   ∃ fields, edit_fields kwargs = Ok fields ∧
             w_requests (snd (edit int_of_str transport kwargs w))
             = (w_requests w ++ [(guild_id (w_guild w), fields)])%list).
Proof.
  split; [apply edit_guild|].
  destruct (edit_fields kwargs) as [fields|e] eqn:Hf.
  - destruct (decide (dom fields = ∅)) as [Hdom|Hdom].
    + apply dom_empty_iff_L in Hdom. subst fields.
      assert (edit int_of_str transport kwargs w = (Ok tt, w)) as ->.
      { unfold edit, mbind, M_bind, lift. by rewrite Hf. }
      auto.
    + assert (Hne : fields ≠ ∅) by (intros ->; by rewrite dom_empty_L in Hdom).
      rewrite (edit_sends int_of_str transport _ _ w Hf Hne).
      destruct (transport _ _) as [data|e]; simpl.
      * rewrite store_sent. simpl.
        rewrite (proj2 (store_frame int_of_str data w)). eauto.
      * eauto.
  - rewrite (edit_validation_error int_of_str transport _ _ w Hf). auto.
Qed.

(** X10: [edit] does not move the flag. After any call, also one that
    asked for [enabled] and succeeded, [enabled] reads what it read before:
    it follows the guild's features, which [edit] never assigns. *)
Theorem edit_keeps_enabled (kwargs : gmap string pyval) (w : World) :
  enabled (snd (edit int_of_str transport kwargs w)) = enabled w.
Proof.
  unfold enabled. by rewrite edit_guild.
Qed.

(** X11: a request that succeeds leaves the screen as a welcome screen
    newly made from the response for the same guild: [edit] returns when
    [WelcomeScreen(data=response, guild=guild)] can be made, with its
    attributes, and raises what the constructor raises otherwise. *)
Theorem edit_as_constructed (kwargs fields : gmap string pyval)
    (data : pyval) (w : World) :
  kwargs ≠ ∅ →
  edit_fields kwargs = Ok fields →
  transport (guild_id (w_guild w)) fields = Ok data →
  match edit int_of_str transport kwargs w with
  | (Ok _, w') => WelcomeScreen_init int_of_str data (w_guild w) = Ok (w_screen w')
  | (Raise e, _) => WelcomeScreen_init int_of_str data (w_guild w) = Raise e
  end.
Proof.
  intros Hne Hf Ht.
  rewrite (edit_sends int_of_str transport _ _ w Hf
             (edit_fields_non_empty _ _ Hf Hne)), Ht.
  unfold WelcomeScreen_init. rewrite !store_unfold. simpl.
  destruct (py_getitem data "description") as [d|]; [|done].
  destruct (hydrate_channels int_of_str data (w_guild w)); done.
Qed.

End WelcomeScreenProperties.

(** * Properties of the counter view *)

Section CounterProperties.

Variable int_of_str : string → option Z.
Variable edit_message : Button → result unit.

Lemma py_str_non_empty (n : Z) : py_str n ≠ "".
Proof.
  unfold py_str. destruct (Z.to_int n) as [d|d]; simpl; [|discriminate].
  destruct d; simpl; discriminate.
Qed.

(** One press of a button whose label reads as the number [n]. *)
Lemma count_number (w : CounterWorld) (s : string) (n : Z) :
  label (c_button w) = Some s → s ≠ "" → int_of_str s = Some n →
  count int_of_str edit_message w
  = let button :=
      mkButton (Some (py_str (n + 1)))
               (if (5 <=? n + 1)%Z then ButtonStyle_green else style (c_button w))
               (if (5 <=? n + 1)%Z then true else disabled (c_button w)) in
    (edit_message button, mkCounterWorld button (c_edits w ++ [button])).
Proof.
  intros Hl Hs Hn. unfold count, label_value. rewrite Hl. simpl.
  destruct (String.eqb_spec s "") as [|_]; [done|]. simpl. rewrite Hn.
  destruct (5 <=? n + 1)%Z; reflexivity.
Qed.

Lemma counted_next (n : Z) (edits : list Button) :
  (0 ≤ n)%Z → int_of_str (py_str n) = Some n →
  count int_of_str edit_message (mkCounterWorld (counted n) edits)
  = (edit_message (counted (n + 1)),
     mkCounterWorld (counted (n + 1)) (edits ++ [counted (n + 1)])).
Proof.
  intros Hn Hint.
  rewrite (count_number _ (py_str n) n); [|done|apply py_str_non_empty|done].
  unfold counted. simpl.
  destruct (Z.leb_spec 5 (n + 1)), (Z.leb_spec 5 n); try lia; reflexivity.
Qed.

Lemma presses_counted (k : nat) (n : Z) (edits : list Button) :
  (0 ≤ n)%Z →
  (∀ z, (n ≤ z < n + Z.of_nat k)%Z → int_of_str (py_str z) = Some z) →
  (∀ z, (n < z ≤ n + Z.of_nat k)%Z → edit_message (counted z) = Ok tt) →
  presses int_of_str edit_message k (mkCounterWorld (counted n) edits)
  = (Ok tt,
     mkCounterWorld (counted (n + Z.of_nat k))
       (edits ++ ((λ i, counted (n + Z.of_nat i)) <$> seq 1 k))).
Proof.
  revert n edits. induction k as [|k IH]; intros n edits Hn Hint Hedit.
  - simpl. by rewrite Z.add_0_r, app_nil_r.
  - cbn [presses]. rewrite counted_next; [|done|apply Hint; lia].
    rewrite Hedit; [|lia].
    rewrite IH; [|lia|intros; apply Hint; lia|intros; apply Hedit; lia].
    f_equal. f_equal; [f_equal; lia|].
    rewrite <- app_assoc. f_equal. cbn [seq fmap list_fmap]. f_equal.
    rewrite <- !fmap_S_seq, <- !list_fmap_compose.
    apply list_fmap_ext. intros _ i _. simpl. f_equal. lia.
Qed.

(** X12: pressed [k] times, the decorator's button shows [k]; it is red and
    enabled while [k] is below 5, green and disabled from 5 on. Each press
    asked for one edit of the message, carrying the button as it then was.
    (The label is read back with [int], which must read what [str] wrote;
    Discord must accept the edits.) *)
Theorem presses_from_zero (k : nat) (edits : list Button) :
  (∀ z, (0 ≤ z < Z.of_nat k)%Z → int_of_str (py_str z) = Some z) →
  (∀ z, (0 < z ≤ Z.of_nat k)%Z → edit_message (counted z) = Ok tt) →
  presses int_of_str edit_message k (mkCounterWorld Counter_button edits)
  = (Ok tt,
     mkCounterWorld (counted (Z.of_nat k))
       (edits ++ ((λ i, counted (Z.of_nat i)) <$> seq 1 k))).
Proof.
  intros Hint Hedit.
  change Counter_button with (counted 0).
  by rewrite (presses_counted k 0 edits).
Qed.

Lemma count_keeps_disabled (w : CounterWorld) :
  (disabled (c_button w) = true →
   disabled (c_button (snd (count int_of_str edit_message w))) = true) ∧
  (style (c_button w) = ButtonStyle_green →
   style (c_button (snd (count int_of_str edit_message w))) = ButtonStyle_green).
Proof.
  unfold count.
  destruct (if py_truthy _ then _ else _) as [number|e]; [|done].
  simpl. destruct (5 <=? number + 1)%Z; done.
Qed.

(** X13: a counter that is disabled stays disabled, and one that is green
    stays green, however often [count] runs afterwards and whatever label
    it finds: no press enables the button again. *)
Theorem presses_keep_disabled (k : nat) (w : CounterWorld) :
  (disabled (c_button w) = true →
   disabled (c_button (snd (presses int_of_str edit_message k w))) = true) ∧
  (style (c_button w) = ButtonStyle_green →
   style (c_button (snd (presses int_of_str edit_message k w)))
   = ButtonStyle_green).
Proof.
  revert w. induction k as [|k IH]; intros w; [done|].
  cbn [presses]. pose proof (count_keeps_disabled w) as [Hd Hs].
  destruct (count int_of_str edit_message w) as [[[]|e] w'] eqn:Hc;
    simpl in *.
  - destruct (IH w') as [IHd IHs]. auto.
  - auto.
Qed.

(** X14: a label that [int] cannot read makes [count] raise [ValueError]
    before anything is assigned: the button is as it was and no edit of the
    message is asked for. *)
Theorem count_unreadable_label (w : CounterWorld) (s : string) :
  label (c_button w) = Some s → s ≠ "" → int_of_str s = None →
  count int_of_str edit_message w = (Raise ValueError, w).
Proof.
  intros Hl Hs Hn. unfold count, label_value. rewrite Hl. simpl.
  destruct (String.eqb_spec s "") as [|_]; [done|]. simpl. by rewrite Hn.
Qed.

(** X15: a button without label, or with the empty label, counts from 0:
    [int] is not called, the press makes the label ['1'] and leaves style
    and [disabled] as they were. *)
Theorem count_without_label (w : CounterWorld) :
  label (c_button w) = None ∨ label (c_button w) = Some "" →
  c_button (snd (count int_of_str edit_message w))
  = mkButton (Some "1") (style (c_button w)) (disabled (c_button w)) ∧
  fst (count int_of_str edit_message w)
  = edit_message (mkButton (Some "1") (style (c_button w)) (disabled (c_button w))).
Proof.
  intros Hl. unfold count, label_value.
  destruct Hl as [-> | ->]; simpl; by destruct (c_button w).
Qed.

(** X16: the view is updated before the message is: what a press leaves
    behind is the same whether Discord accepts the edit or not. Either
    nothing changed, or exactly one edit was asked for, carrying the button
    as the press left it, and [count] returns or raises as that edit did. *)
Theorem count_state_before_edit (edit_message' : Button → result unit)
    (w : CounterWorld) :
  snd (count int_of_str edit_message w) = snd (count int_of_str edit_message' w) ∧
  (snd (count int_of_str edit_message w) = w ∨
   (c_edits (snd (count int_of_str edit_message w))
    = (c_edits w ++ [c_button (snd (count int_of_str edit_message w))])%list ∧
    fst (count int_of_str edit_message w)
    = edit_message (c_button (snd (count int_of_str edit_message w))))).
Proof.
  unfold count.
  destruct (if py_truthy _ then _ else _) as [number|e0]; simpl; auto.
Qed.

End CounterProperties.

(** * The further properties at concrete inputs *)

(** The entry with the loudspeaker emoji goes round. *)
Lemma to_dict_then_from_dict_witness :
  ∃ ret, to_dict loud_entry = Ok ret ∧
         _from_dict int_of_digits (VDict ret) community_guild = Ok loud_entry.
Proof.
  assert (H1 : get_channel community_guild (VInt (channel_id rules_channel))
               = Some rules_channel) by reflexivity.
  assert (H2 : emoji_survives community_guild (EmojiObj (TagEmoji loudspeaker))).
  { split; [discriminate | reflexivity]. }
  exact (to_dict_then_from_dict int_of_digits community_guild rules_channel
           (VStr "Watch out for announcements!") _ H1 H2).
Defined.

(** The emoji 99 is not in the guild: it does not survive. *)
Lemma deleted_emoji_is_dropped_witness :
  ∃ entry ret,
    _from_dict int_of_digits (VDict deleted_emoji_payload) community_guild
    = Ok entry ∧
    wc_emoji entry = EmojiRaw VNone ∧
    to_dict entry = Ok ret ∧
    ret !! "emoji_id" = Some VNone ∧ ret !! "emoji_name" = Some VNone.
Proof.
  assert (H7 : ∀ e, e ∈ guild_emojis community_guild → emoji_id e ≠ 99).
  { intros e He. apply elem_of_cons in He as [->|He]; [discriminate|].
    by apply elem_of_nil in He. }
  assert (H5 : (99 : Z) ≠ 0) by discriminate.
  assert (H6 : is_Some (deleted_emoji_payload !! "emoji_name"))
    by (eexists; reflexivity).
  exact (deleted_emoji_is_dropped int_of_digits community_guild
           deleted_emoji_payload rules_channel 99
           eq_refl eq_refl eq_refl eq_refl H5 H6 H7).
Defined.

Lemma to_dict_keys_witness :
  ∃ ret, to_dict rules_entry = Ok ret ∧
         dom ret = {["channel_id"; "description"; "emoji_id"; "emoji_name"]}.
Proof.
  destruct (to_dict rules_entry) as [ret|e] eqn:H; [|discriminate].
  exists ret. split; [reflexivity|].
  exact (proj1 (to_dict_keys rules_entry ret H)).
Defined.

(** Storing the sample payload, from the sample world and from one whose
    screen holds something else. *)
Lemma store_overwrites_witness :
  ∃ w1', _store int_of_digits screen_payload sample_world = (Ok tt, w1') ∧
         _store int_of_digits screen_payload w1' = (Ok tt, w1').
Proof.
  destruct (_store int_of_digits screen_payload sample_world) as [[[]|e] w1']
    eqn:H; [|discriminate].
  exists w1'. split; [reflexivity|].
  exact (proj2 (store_overwrites int_of_digits screen_payload sample_world
                  (mkWorld community_guild (mkWelcomeScreen VNone []) [])
                  w1' eq_refl H)).
Defined.

(** The second channel of the payload has no description: [_store] raises
    with the screen's description already replaced. *)
Lemma store_failure_is_partial_witness :
  ∃ w',
    _store int_of_digits broken_screen_payload sample_world
    = (Raise (KeyError "description"), w') ∧
    welcome_channels (w_screen w') = [rules_entry] ∧
    description (w_screen w') = VStr "Welcome!".
Proof.
  destruct (_store int_of_digits broken_screen_payload sample_world)
    as [[[]|e] w'] eqn:H; [discriminate|].
  assert (He : e = KeyError "description") by (vm_compute in H; congruence).
  subst e. exists w'.
  destruct (store_failure_is_partial int_of_digits broken_screen_payload
              sample_world w' _ H) as (Hc & _ & _ & Hd).
  split; [reflexivity|]. split; [exact Hc | exact Hd].
Defined.

Lemma edit_fields_keys_witness :
  ∃ fields, edit_fields entries_kwargs = Ok fields ∧
            dom fields = dom entries_kwargs ∧
            fields !! "enabled" = Some (VBool true).
Proof.
  destruct (edit_fields entries_kwargs) as [fields|e] eqn:H; [|discriminate].
  exists fields. split; [reflexivity|].
  destruct (edit_fields_keys entries_kwargs fields H) as [Hdom Hother].
  split; [exact Hdom|]. rewrite Hother; [reflexivity | discriminate].
Defined.

Lemma edit_fields_in_order_witness :
  ∃ d1 d2,
    to_dict rules_entry = Ok d1 ∧ to_dict loud_entry = Ok d2 ∧
    edit_fields entries_kwargs
    = Ok (<["welcome_channels" := VList [VDict d1; VDict d2]]> entries_kwargs).
Proof.
  destruct (to_dict rules_entry) as [d1|] eqn:H1; [|discriminate].
  destruct (to_dict loud_entry) as [d2|] eqn:H2; [|discriminate].
  exists d1, d2. split; [reflexivity|]. split; [reflexivity|].
  apply (edit_fields_in_order entries_kwargs [rules_entry; loud_entry] [d1; d2]
           eq_refl).
  repeat constructor; assumption.
Defined.

(** The request succeeds with the sample payload: the screen is the one
    the constructor makes of it. *)
Lemma edit_as_constructed_witness :
  match edit int_of_digits (canned_transport screen_payload)
             description_kwargs sample_world with
  | (Ok _, w') =>
      WelcomeScreen_init int_of_digits screen_payload community_guild
      = Ok (w_screen w')
  | (Raise e, _) =>
      WelcomeScreen_init int_of_digits screen_payload community_guild = Raise e
  end.
Proof.
  assert (H1 : description_kwargs ≠ ∅) by apply map_non_empty_singleton.
  exact (edit_as_constructed int_of_digits (canned_transport screen_payload)
           description_kwargs description_kwargs screen_payload sample_world
           H1 eq_refl eq_refl).
Defined.

(** Five presses: the button shows 5, is green and disabled. *)
Lemma presses_from_zero_witness :
  presses int_of_digits accepting 5 (mkCounterWorld Counter_button [])
  = (Ok tt,
     mkCounterWorld (mkButton (Some "5") ButtonStyle_green true)
       [mkButton (Some "1") ButtonStyle_red false;
        mkButton (Some "2") ButtonStyle_red false;
        mkButton (Some "3") ButtonStyle_red false;
        mkButton (Some "4") ButtonStyle_red false;
        mkButton (Some "5") ButtonStyle_green true]).
Proof.
  assert (H1 : ∀ z, (0 ≤ z < Z.of_nat 5)%Z → int_of_digits (py_str z) = Some z).
  { intros z Hz.
    assert (z = 0 ∨ z = 1 ∨ z = 2 ∨ z = 3 ∨ z = 4) as Hcases by lia.
    destruct Hcases as [->|[->|[->|[->| ->]]]]; reflexivity. }
  assert (H2 : ∀ z, (0 < z ≤ Z.of_nat 5)%Z → accepting (counted z) = Ok tt)
    by reflexivity.
  exact (presses_from_zero int_of_digits accepting 5 [] H1 H2).
Defined.

Lemma count_unreadable_label_witness :
  count int_of_digits accepting
        (mkCounterWorld (mkButton (Some "five") ButtonStyle_red false) [])
  = (Raise ValueError,
     mkCounterWorld (mkButton (Some "five") ButtonStyle_red false) []).
Proof.
  assert (H2 : "five" ≠ "") by discriminate.
  exact (count_unreadable_label int_of_digits accepting
           (mkCounterWorld (mkButton (Some "five") ButtonStyle_red false) [])
           "five" eq_refl H2 eq_refl).
Defined.

Lemma count_without_label_witness :
  c_button (snd (count int_of_digits refusing
                       (mkCounterWorld (mkButton None style_primary false) [])))
  = mkButton (Some "1") style_primary false.
Proof.
  exact (proj1 (count_without_label int_of_digits refusing
                  (mkCounterWorld (mkButton None style_primary false) [])
                  (or_introl eq_refl))).
Defined.

(** An entry, then a string: rejected, nothing sent. *)
Lemma edit_rejects_non_entry_witness :
  edit int_of_digits forbidden_transport invalid_kwargs sample_world
  = (Raise (InvalidArgument welcome_channels_message), sample_world).
Proof.
  exact (edit_rejects_non_entry int_of_digits forbidden_transport invalid_kwargs
           [VWelcomeChannel rules_entry] [] (VStr "rules") sample_world
           eq_refl eq_refl eq_refl).
Defined.

Lemma edit_non_entry_never_sends_witness :
  ∃ e, edit int_of_digits forbidden_transport orphan_then_invalid_kwargs
            sample_world
       = (Raise e, sample_world).
Proof.
  exact (edit_non_entry_never_sends int_of_digits forbidden_transport
           orphan_then_invalid_kwargs _ sample_world eq_refl eq_refl).
Defined.

Lemma from_dict_emoji_name_required_witness :
  _from_dict int_of_digits (VDict bare_payload) community_guild
  = Raise (KeyError "emoji_name").
Proof.
  exact (from_dict_emoji_name_required int_of_digits bare_payload
           community_guild eq_refl eq_refl).
Defined.
